(** * node-rdkafka: the Topic binding (src/topic.cc)

    A shallow embedding of [NodeKafka::Connection::Topic]: the C++
    constructor, the JavaScript constructor [New], [NewInstance],
    [Init], [toRdKafkaTopic], [Name], and the prototype methods
    [NodeGet] and [NodeGetName].

    The file forwards to librdkafka and to the rest of the addon
    (src/connection.cc, src/config.cc, src/common.h), none of which is
    part of topic.cc.  Those entry points are gathered in the class
    [RdKafkaLib]: the theorems of the sections [Properties] and
    [Binding] hold for all its instances, and the sections [Runs] and
    [BindingRuns] evaluate the binding on concrete calls with the
    instance [Sample.lib]. *)

From Stdlib Require Import Ascii String NArith.
From stdpp Require Import base option functions gmap strings.

Local Open Scope string_scope.

(** ** Strings on both sides of the binding

    A C++ [std::string] is a sequence of bytes, a [string] here.  A
    JavaScript string is a sequence of 16-bit code units. *)

(** One UTF-16 code unit, as its high and low byte. *)
Inductive code_unit : Type := CodeUnit (hi lo : ascii).

#[global] Instance code_unit_eq_dec : EqDecision code_unit.
Proof. solve_decision. Defined.

Definition unit_value (u : code_unit) : N :=
  match u with CodeUnit hi lo => (256 * N_of_ascii hi + N_of_ascii lo)%N end.

Definition unit_of_N (n : N) : code_unit :=
  CodeUnit (ascii_of_N (n / 256)) (ascii_of_N (n mod 256)).

(** The JavaScript string whose code units are the characters of [s];
    for an ASCII literal, the string one reads. *)
Definition js (s : string) : list code_unit :=
  CodeUnit zero <$> list_ascii_of_string s.

(** Lead and trail surrogates. *)
Definition is_lead (v : N) : bool := (0xD800 <=? v)%N && (v <? 0xDC00)%N.
Definition is_trail (v : N) : bool := (0xDC00 <=? v)%N && (v <? 0xE000)%N.

(** U+FFFD, which stands in for what cannot be converted. *)
Definition replacement : N := 0xFFFD%N.

(** The UTF-8 bytes of one code point. *)
Definition utf8_of_code_point (cp : N) : string :=
  if (cp <? 0x80)%N then
    String (ascii_of_N cp) ""
  else if (cp <? 0x800)%N then
    String (ascii_of_N (0xC0 + cp / 64))
      (String (ascii_of_N (0x80 + cp mod 64)) "")
  else if (cp <? 0x10000)%N then
    String (ascii_of_N (0xE0 + cp / 4096))
      (String (ascii_of_N (0x80 + (cp / 64) mod 64))
         (String (ascii_of_N (0x80 + cp mod 64)) ""))
  else
    String (ascii_of_N (0xF0 + cp / 262144))
      (String (ascii_of_N (0x80 + (cp / 4096) mod 64))
         (String (ascii_of_N (0x80 + (cp / 64) mod 64))
            (String (ascii_of_N (0x80 + cp mod 64)) ""))).

(** [v8::String::WriteUtf8] with [REPLACE_INVALID_UTF8], as
    [Nan::Utf8String] calls it: a lead surrogate followed by a trail
    surrogate is one code point of four bytes, any other surrogate is
    written as U+FFFD. *)
Fixpoint WriteUtf8 (s : list code_unit) : string :=
  match s with
  | [] => ""
  | u :: rest =>
      let v := unit_value u in
      if is_lead v then
        match rest with
        | u' :: rest' =>
            let v' := unit_value u' in
            if is_trail v' then
              utf8_of_code_point (0x10000 + (v - 0xD800) * 1024 + (v' - 0xDC00))
                +:+ WriteUtf8 rest'
            else utf8_of_code_point replacement +:+ WriteUtf8 rest
        | [] => utf8_of_code_point replacement
        end
      else if is_trail v then utf8_of_code_point replacement +:+ WriteUtf8 rest
      else utf8_of_code_point v +:+ WriteUtf8 rest
  end.

(** The code units of one code point. *)
Definition units_of_code_point (cp : N) : list code_unit :=
  if (cp <? 0x10000)%N then [unit_of_N cp]
  else [unit_of_N (0xD800 + (cp - 0x10000) / 1024);
        unit_of_N (0xDC00 + (cp - 0x10000) mod 1024)].

(** A UTF-8 sequence under way: the continuation bytes still needed, the
    bits read so far, and the range allowed for the next byte. *)
Record pending : Type := mkPending {
  need : nat;
  acc : N;
  lo_bound : N;
  hi_bound : N
}.

(** A byte met outside any sequence. *)
Definition start (b : N) : list code_unit * option pending :=
  if (b <? 0x80)%N then ([unit_of_N b], None)
  else if (0xC2 <=? b)%N && (b <=? 0xDF)%N then
    ([], Some (mkPending 1 (b - 0xC0) 0x80 0xBF))
  else if (b =? 0xE0)%N then ([], Some (mkPending 2 0 0xA0 0xBF))
  else if (b =? 0xED)%N then ([], Some (mkPending 2 0xD 0x80 0x9F))
  else if (0xE1 <=? b)%N && (b <=? 0xEF)%N then
    ([], Some (mkPending 2 (b - 0xE0) 0x80 0xBF))
  else if (b =? 0xF0)%N then ([], Some (mkPending 3 0 0x90 0xBF))
  else if (0xF1 <=? b)%N && (b <=? 0xF3)%N then
    ([], Some (mkPending 3 (b - 0xF0) 0x80 0xBF))
  else if (b =? 0xF4)%N then ([], Some (mkPending 3 4 0x80 0x8F))
  else ([unit_of_N replacement], None).

(** One byte of the decoder.  A byte that cannot continue the sequence
    under way ends it with U+FFFD and is then read as a first byte. *)
Definition step (st : option pending) (b : N)
    : list code_unit * option pending :=
  match st with
  | None => start b
  | Some p =>
      if (lo_bound p <=? b)%N && (b <=? hi_bound p)%N then
        let acc' := (acc p * 64 + (b - 0x80))%N in
        match need p with
        | S (S n) => ([], Some (mkPending (S n) acc' 0x80 0xBF))
        | _ => (units_of_code_point acc', None)
        end
      else
        let '(out, st') := start b in (unit_of_N replacement :: out, st')
  end.

Fixpoint decode_from (st : option pending) (bytes : string) : list code_unit :=
  match bytes with
  | EmptyString =>
      match st with None => [] | Some _ => [unit_of_N replacement] end
  | String c rest =>
      let '(out, st') := step st (N_of_ascii c) in
      (out ++ decode_from st' rest)%list
  end.

(** [v8::String::NewFromUtf8] on the bytes and length of a
    [std::string], as [Nan::New(std::string)] calls it: ill-formed
    input comes out as U+FFFD. *)
Definition NewFromUtf8 (bytes : string) : list code_unit :=
  decode_from None bytes.

(** [Nan::Utf8String parameterValue(s)]: the buffer holds every byte of
    the UTF-8 form of the string, followed by a terminating NUL. *)
Definition Utf8String (s : list code_unit) : string := WriteUtf8 s.

(** [std::string s(char_ptr)]: the [const char*] constructor reads up to
    the first NUL byte of the buffer. *)
Fixpoint std_string (buf : string) : string :=
  match buf with
  | EmptyString => EmptyString
  | String c rest =>
      if Ascii.eqb c Ascii.zero then EmptyString
      else String c (std_string rest)
  end.

(** No NUL byte occurs in the string. *)
Fixpoint nul_free (s : string) : bool :=
  match s with
  | EmptyString => true
  | String c rest => negb (Ascii.eqb c Ascii.zero) && nul_free rest
  end.

(** The JavaScript string up to its first NUL character. *)
Fixpoint nul_cut (s : list code_unit) : list code_unit :=
  match s with
  | [] => []
  | u :: rest => if (unit_value u =? 0)%N then [] else u :: nul_cut rest
  end.

(** No NUL character occurs in the JavaScript string. *)
Definition no_nul (s : list code_unit) : bool :=
  forallb (fun u => negb (unit_value u =? 0)%N) s.

(** Every surrogate of the JavaScript string is half of a pair. *)
Fixpoint well_formed (s : list code_unit) : bool :=
  match s with
  | [] => true
  | u :: rest =>
      if is_lead (unit_value u) then
        match rest with
        | u' :: rest' => is_trail (unit_value u') && well_formed rest'
        | [] => false
        end
      else negb (is_trail (unit_value u)) && well_formed rest
  end.

(** ** Values of the host runtime *)

(** What a [Connection*] of the binding can point at: a native
    [Connection], or the native [Topic] wrapped in an instance of the
    Topic template, since [ObjectWrap::Unwrap<Connection>] hands out the
    internal field of its argument whatever object it holds. *)
Inductive ConnPtr : Type :=
| ConnectionAt (p : nat)
| TopicAt (id : nat).

#[global] Instance ConnPtr_eq_dec : EqDecision ConnPtr.
Proof. solve_decision. Defined.

(** The JavaScript values the binding tells apart.  [JsObject props] is
    an ordinary object with the own data properties [props], inheriting
    from [Object.prototype]; [JsConnection p] is the object wrapping the
    native connection [p]; [JsInstance id] is an instance of the Topic
    function template (one internal field), named by [id]. *)
#[warnings="-register-all"]
Inductive JsValue : Type :=
| JsUndefined
| JsNull
| JsBoolean (b : bool)
| JsString (s : list code_unit)
| JsObject (props : list (list code_unit * JsValue))
| JsConnection (p : nat)
| JsInstance (id : nat).

Definition IsString (v : JsValue) : bool :=
  match v with JsString _ => true | _ => false end.

Definition IsObject (v : JsValue) : bool :=
  match v with
  | JsObject _ | JsConnection _ | JsInstance _ => true
  | _ => false
  end.

(** The object has an own property of that name. *)
Definition has_own (name : list code_unit)
    (props : list (list code_unit * JsValue)) : bool :=
  existsb (fun p => bool_decide (p.1 = name)) props.

(** [v->ToString()] on the values above; [None] when the conversion
    raises a TypeError and the handle returned is empty.  An object
    converts through its [toString]: the one of [Object.prototype],
    unless it has an own property of that name, which here is never
    callable, so that the conversion fails. *)
Definition ToString (v : JsValue) : option (list code_unit) :=
  match v with
  | JsUndefined => Some (js "undefined")
  | JsNull => Some (js "null")
  | JsBoolean true => Some (js "true")
  | JsBoolean false => Some (js "false")
  | JsString s => Some s
  | JsObject props =>
      if has_own (js "toString") props then None
      else Some (js "[object Object]")
  | JsConnection _ | JsInstance _ => Some (js "[object Object]")
  end.

(** [Nan::New(s).ToLocalChecked()] for a [std::string]. *)
Definition Nan_New (s : string) : JsValue := JsString (NewFromUtf8 s).

(** [Nan::FunctionCallbackInfo]: what a native method sees of its call. *)
Record FunctionCallbackInfo : Type := {
  IsConstructCall : bool;
  This : JsValue;
  args : list JsValue
}.

Definition Length (info : FunctionCallbackInfo) : nat := length (args info).

(** [info[i]]; reading past the arguments yields undefined. *)
Definition arg (info : FunctionCallbackInfo) (i : nat) : JsValue :=
  default JsUndefined (args info !! i).

(** How a native method ends: it sets a return value (undefined when it
    sets none), leaves a JavaScript error with a message to be raised,
    or brings the process down (a failed assertion of [ObjectWrap], an
    empty handle unwrapped). *)
Inductive Outcome : Type :=
| Return (v : JsValue)
| Throw (msg : string)
| Crash.

(** ** The library side *)

(** [RdKafka::Conf::ConfResult]. *)
Inductive ConfResult : Type := CONF_UNKNOWN | CONF_INVALID | CONF_OK.

(** [RdKafka::Conf::ConfType]. *)
Inductive ConfType : Type := CONF_GLOBAL | CONF_TOPIC.

(** The codes of [RdKafka::ErrorCode] that the addon names around topic
    handling. *)
Inductive ErrorCode : Type :=
| ERR_NO_ERROR
| ERR__STATE
| ERR__FAIL
| ERR__INVALID_ARG
| ERR__UNKNOWN_TOPIC.

#[global] Instance ErrorCode_eq_dec : EqDecision ErrorCode.
Proof. solve_decision. Defined.

(** Modelled from the spec: the [Baton] class of src/common.h is not in
    topic.cc.  The spec gives the pair it carries,
    [(handle, errorCode)]: built from an error code it holds no data,
    built from a data pointer its code is [ERR_NO_ERROR].  [None] is the
    null pointer. *)
Record Baton (D : Type) : Type := mkBaton {
  err : ErrorCode;
  data : option D
}.
Arguments mkBaton {D} _ _.
Arguments err {D} _.
Arguments data {D} _.

Definition Baton_of_err {D : Type} (e : ErrorCode) : Baton D := mkBaton e None.
Definition Baton_of_data {D : Type} (d : option D) : Baton D :=
  mkBaton ERR_NO_ERROR d.

(** What topic.cc calls and does not define.
    - [Conf_create] is [Conf::create(type, object, errstr)] of
      src/config.cc: a configuration, or null together with the message
      left in [errstr];
    - [Conf_get] is [RdKafka::Conf::get(name, value)], a [const] method:
      the result code and the value written to [value];
    - [CreateTopic] is the method of [NodeKafka::Connection], called on
      what the handle points at: its answer, and the state it leaves
      there;
    - [IsConnected] is the test of [NodeKafka::Connection]. *)
Class RdKafkaLib : Type := {
  Conf : Type;
  RdTopic : Type;
  Connection : Type;
  Conf_create : ConfType -> JsValue -> option Conf * string;
  Conf_get : Conf -> string -> ConfResult * string;
  CreateTopic : Connection -> string -> Conf -> Baton RdTopic * Connection;
  IsConnected : Connection -> bool
}.

(** ** The Topic object *)

Section Topic.
Context {L : RdKafkaLib}.

(** The members of [Connection::Topic].  [m_topic] and [m_handle] are
    pointers that the code tests against null; [m_config] is the
    configuration [New] has checked to be non-null. *)
Record Topic : Type := mkTopic {
  m_topic : option RdTopic;
  m_topic_name : string;
  m_config : Conf;
  m_handle : option ConnPtr
}.

(** The state the binding runs in: what the methods of [Connection]
    find behind each address they can be called on, and the Topic
    wrapped in each instance of the Topic template. *)
Record World : Type := mkWorld {
  connection : ConnPtr -> Connection;
  topics : gmap nat Topic
}.

(** [Connection::Topic::Topic(topic_name, config, handle)].  [handle] is
    dereferenced at once, so it is an address here; the call of
    [CreateTopic] leaves its mark on what [handle] points at. *)
Definition Topic_ctor (w : World) (topic_name : string) (config : Conf)
    (handle : ConnPtr) : Topic * World :=
  let '(b, c) := CreateTopic (connection w handle) topic_name config in
  let w1 := mkWorld (<[handle := c]> (connection w)) (topics w) in
  if decide (err b = ERR_NO_ERROR)
  then (mkTopic (data b) topic_name config (Some handle), w1)
  else (mkTopic None topic_name config (Some handle), w1).

(** [ObjectWrap::Unwrap<Connection>(v->ToObject())]: the pointer in the
    internal field of [v], of whatever class the object it points at;
    the assertions of [Unwrap] fail on a value without internal field. *)
Definition Unwrap_Connection (v : JsValue) : option ConnPtr :=
  match v with
  | JsConnection p => Some (ConnectionAt p)
  | JsInstance id => Some (TopicAt id)
  | _ => None
  end.

(** [ObjectWrap::Unwrap<Topic>(v)]. *)
Definition Unwrap_Topic (w : World) (v : JsValue) : option Topic :=
  match v with JsInstance id => topics w !! id | _ => None end.

(** [topic->Wrap(v)]: stores the Topic in the internal field of [v]. *)
Definition Wrap (w : World) (topic : Topic) (v : JsValue) : option World :=
  match v with
  | JsInstance id => Some (mkWorld (connection w) (<[id := topic]> (topics w)))
  | _ => None
  end.

(** [Connection::Topic::New].  [Nan::ThrowError(errstr.c_str())] takes
    its message as a C string. *)
Definition New (w : World) (info : FunctionCallbackInfo) : Outcome * World :=
  if negb (IsConstructCall info) then
    (Throw "non-constructor invocation not supported", w)
  else if (Length info <? 3)%nat then
    (Throw "Handle, topic name and configuration required", w)
  else if negb (IsString (arg info 0)) then
    (Throw "Topic name must be a string", w)
  else
    match ToString (arg info 0) with
    | None => (Throw "Cannot convert object to primitive value", w)
    | Some name =>
        let topic_name := std_string (Utf8String name) in
        if negb (IsObject (arg info 1)) then
          (Throw "Configuration data must be specified", w)
        else
          match Conf_create CONF_TOPIC (arg info 1) with
          | (None, errstr) => (Throw (std_string errstr), w)
          | (Some config, _) =>
              match Unwrap_Connection (arg info 2) with
              | None => (Crash, w)
              | Some connection_ptr =>
                  let '(topic, w1) :=
                    Topic_ctor w topic_name config connection_ptr in
                  match Wrap w1 topic (This info) with
                  | None => (Crash, w1)
                  | Some w2 => (Return (This info), w2)
                  end
              end
          end
    end.

(** [Connection::Topic::toRdKafkaTopic], run in the world of the call. *)
Definition toRdKafkaTopic (w : World) (t : Topic) : Baton RdTopic :=
  match m_handle t with
  | None => Baton_of_err ERR__STATE
  | Some h =>
      if negb (IsConnected (connection w h)) then Baton_of_err ERR__STATE
      else Baton_of_data (m_topic t)
  end.

(** [Connection::Topic::Name]. *)
Definition Name (t : Topic) : string := m_topic_name t.

(** [Connection::Topic::NodeGet].  When the conversion of the key
    raises, that error is what the caller gets. *)
Definition NodeGet (w : World) (info : FunctionCallbackInfo) : Outcome * World :=
  match Unwrap_Topic w (This info) with
  | None => (Crash, w)
  | Some topic =>
      if (Length info <? 1)%nat then
        (Throw "Must provide a config key to lookup.", w)
      else
        match ToString (arg info 0) with
        | None => (Throw "Cannot convert object to primitive value", w)
        | Some key =>
            let config_key := std_string (Utf8String key) in
            let topic_conf := m_config topic in
            let '(res, value) := Conf_get topic_conf config_key in
            match res with
            | CONF_UNKNOWN => (Return JsUndefined, w)
            | CONF_INVALID =>
                (Throw "Topic configuration retroactively invalid...", w)
            | CONF_OK => (Return (Nan_New value), w)
            end
        end
  end.

(** [Connection::Topic::NodeGetName]. *)
Definition NodeGetName (w : World) (info : FunctionCallbackInfo)
    : Outcome * World :=
  match Unwrap_Topic w (This info) with
  | None => (Crash, w)
  | Some topic => (Return (Nan_New (Name topic)), w)
  end.

(** The call [new Topic(a0, a1, ...)] on the fresh instance [id]. *)
Definition construct (id : nat) (a : list JsValue) : FunctionCallbackInfo :=
  {| IsConstructCall := true; This := JsInstance id; args := a |}.

(** The call [topic.m(a0, a1, ...)] on the instance [id]. *)
Definition method_call (id : nat) (a : list JsValue) : FunctionCallbackInfo :=
  {| IsConstructCall := false; This := JsInstance id; args := a |}.

End Topic.

(** Lookups run one after the other, each in the world the previous one
    left. *)
Fixpoint run_lookups {L : RdKafkaLib} (w : World)
    (calls : list FunctionCallbackInfo) : list Outcome * World :=
  match calls with
  | [] => ([], w)
  | info :: rest =>
      let '(o, w1) := NodeGet w info in
      let '(os, w2) := run_lookups w1 rest in
      (o :: os, w2)
  end.

(** [Connection::Topic::NewInstance(arg)]: a construct call of the
    stored constructor with the single argument [arg], on the instance
    [fresh] the runtime allocates for it.  [ToLocalChecked] on the empty
    result of a call that raised brings the process down. *)
Definition NewInstance {L : RdKafkaLib} (w : World) (fresh : nat)
    (arg0 : JsValue) : Outcome * World :=
  match New w (construct fresh [arg0]) with
  | (Return instance, w1) => (Return instance, w1)
  | (_, w1) => (Crash, w1)
  end.

(** A native method: [void f(const Nan::FunctionCallbackInfo&)], run in
    a world. *)
Definition NanMethod {L : RdKafkaLib} : Type :=
  World -> FunctionCallbackInfo -> Outcome * World.

(** [Nan::SetPrototypeMethod(tpl, name, callback)] installs [callback]
    behind the signature of [tpl]: on a receiver that is not an instance
    of the template the call raises a TypeError and [callback] is not
    entered. *)
Definition SetPrototypeMethod {L : RdKafkaLib} (callback : NanMethod)
    : NanMethod :=
  fun w info =>
    match This info with
    | JsInstance _ => callback w info
    | _ => (Throw "Illegal invocation", w)
    end.

(** What [Connection::Topic::Init] puts in the function template from
    which the static [constructor] is made. *)
Record FunctionTemplate {L : RdKafkaLib} : Type := mkTemplate {
  callback : NanMethod;
  class_name : string;
  internal_field_count : nat;
  prototype_methods : list (string * NanMethod)
}.

(** [Connection::Topic::Init]. *)
Definition Init {L : RdKafkaLib} : FunctionTemplate :=
  {| callback := New;
     class_name := "Topic";
     internal_field_count := 1;
     prototype_methods :=
       [("name", SetPrototypeMethod NodeGetName);
        ("get", SetPrototypeMethod NodeGet)] |}.

(** The native code JavaScript can enter through the class: the
    constructor callback and the prototype methods. *)
Definition entry_points {L : RdKafkaLib} : list NanMethod :=
  callback Init :: (snd <$> prototype_methods Init).

(** Calls run one after the other, each in the world left by the
    previous one. *)
Fixpoint run {L : RdKafkaLib} (w : World)
    (calls : list (NanMethod * FunctionCallbackInfo)) : list Outcome * World :=
  match calls with
  | [] => ([], w)
  | (f, info) :: rest =>
      let '(o, w1) := f w info in
      let '(os, w2) := run w1 rest in
      (o :: os, w2)
  end.

(** The shape of a Topic that went through [New]: its name is a C
    string and it has a connection. *)
Definition built_by_New {L : RdKafkaLib} (t : Topic) : bool :=
  nul_free (m_topic_name t) &&
  match m_handle t with Some _ => true | None => false end.

(** The third argument of the call is no instance of the Topic
    template. *)
Definition connection_is_no_Topic (info : FunctionCallbackInfo) : bool :=
  match arg info 2 with JsInstance _ => false | _ => true end.

(** ** A small library to run the binding on

    An instance of [RdKafkaLib] on which the definitions above compute:
    a configuration is a list of entries plus the keys the library has
    come to consider invalid, a connection is its readiness flag, and a
    native topic handle is the topic's name.  Topic creation needs an
    established connection and leaves the connection as it is. *)
Module Sample.

Record conf : Type := mkConf {
  entries : list (string * string);
  invalidated : list string
}.

(** A property name or value, taken as a C string. *)
Definition c_string (s : list code_unit) : string :=
  std_string (Utf8String s).

Fixpoint read_props (props : list (list code_unit * JsValue))
    : option (list (string * string)) :=
  match props with
  | [] => Some []
  | (k, JsString v) :: rest =>
      cons (c_string k, c_string v) <$> read_props rest
  | _ :: _ => None
  end.

Definition create (ty : ConfType) (v : JsValue) : option conf * string :=
  match v with
  | JsObject props =>
      match read_props props with
      | Some es => (Some (mkConf es []), "")
      | None => (None, "Invalid value for configuration property")
      end
  | _ => (Some (mkConf [] []), "")
  end.

Fixpoint assoc (k : string) (es : list (string * string)) : option string :=
  match es with
  | [] => None
  | (k', v) :: rest => if String.eqb k k' then Some v else assoc k rest
  end.

Definition get (c : conf) (k : string) : ConfResult * string :=
  if existsb (String.eqb k) (invalidated c) then (CONF_INVALID, "")
  else match assoc k (entries c) with
       | Some v => (CONF_OK, v)
       | None => (CONF_UNKNOWN, "")
       end.

Definition create_topic (connected : bool) (name : string) (c : conf)
    : Baton string * bool :=
  (if connected then Baton_of_data (Some name) else Baton_of_err ERR__STATE,
   connected).

#[export] Instance lib : RdKafkaLib := {|
  Conf := conf;
  RdTopic := string;
  Connection := bool;
  Conf_create := create;
  Conf_get := get;
  CreateTopic := create_topic;
  IsConnected := fun connected => connected
|}.

(** No Topic yet; every connection established, or none. *)
Definition online : World := mkWorld (fun _ => true) ∅.
Definition offline : World := mkWorld (fun _ => false) ∅.

(** The configuration [{"acks": v}]. *)
Definition acks (v : string) : JsValue :=
  JsObject [(js "acks", JsString (js v))].

(** A Topic on connection 0 with the entry ["acks"], and the same once
    that entry has become invalid. *)
Definition orders_topic : Topic :=
  mkTopic (Some "orders") "orders" (mkConf [("acks", "1")] [])
    (Some (ConnectionAt 0)).

Definition stale_topic : Topic :=
  mkTopic (Some "orders") "orders" (mkConf [("acks", "1")] ["acks"])
    (Some (ConnectionAt 0)).

Definition orders_world : World :=
  mkWorld (fun _ => true) {[ 0 := orders_topic ]}.

Definition stale_world : World := mkWorld (fun _ => true) {[ 0 := stale_topic ]}.

(** [new Topic("orders", {"acks": "1"}, conn0)] on instance 0, and
    [new Topic("orders", {"acks": "0"}, conn0)] on instance 1. *)
Definition orders_1 : FunctionCallbackInfo :=
  construct 0 [JsString (js "orders"); acks "1"; JsConnection 0].
Definition orders_0 : FunctionCallbackInfo :=
  construct 1 [JsString (js "orders"); acks "0"; JsConnection 0].

(** The strings [a\0b] and [acks\0x], and the string made of the lone
    lead surrogate U+D800. *)
Definition a_nul_b : list code_unit :=
  js (String "a"%char (String Ascii.zero "b")).
Definition acks_nul_x : list code_unit :=
  js (String.append "acks" (String Ascii.zero "x")).
Definition lone_surrogate : list code_unit := [unit_of_N 0xD800].

(** An object whose own [toString] is not a function:
    [{toString: null}]. *)
Definition no_toString : JsValue := JsObject [(js "toString", JsNull)].

End Sample.

(** Sequences of calls on the sample library. *)
Module SampleRun.
Import Sample.

(** [new Topic("orders", {"acks": "1"}, conn0)], then [get("acks")] and
    [name()] on it, then [new Topic("a\0b", {}, conn0)] on instance 1. *)
Definition session : list (NanMethod * FunctionCallbackInfo) :=
  [ (New, orders_1);
    (SetPrototypeMethod NodeGet, method_call 0 [JsString (js "acks")]);
    (SetPrototypeMethod NodeGetName, method_call 0 []);
    (New, construct 1 [JsString a_nul_b; JsObject []; JsConnection 0]) ].

(** [name()], [get("acks")] and [get()] on instance 0. *)
Definition reads : list (NanMethod * FunctionCallbackInfo) :=
  [ (SetPrototypeMethod NodeGetName, method_call 0 []);
    (SetPrototypeMethod NodeGet, method_call 0 [JsString (js "acks")]);
    (SetPrototypeMethod NodeGet, method_call 0 []) ].

End SampleRun.

(** ** Strings: the two conversions *)

Section Strings.

Lemma append_cons c s r : String c s +:+ r = String c (s +:+ r).
Proof. reflexivity. Qed.

Lemma append_nil r : "" +:+ r = r.
Proof. reflexivity. Qed.

Lemma append_empty (s : string) : s +:+ "" = s.
Proof. induction s as [|c s IH]; [done|]. by rewrite append_cons, IH. Qed.

Lemma decode_from_cons st c rest :
  decode_from st (String c rest) =
  let '(out, st') := step st (N_of_ascii c) in
  (out ++ decode_from st' rest)%list.
Proof. reflexivity. Qed.

Ltac split_tests :=
  repeat match goal with
    | |- context [(?a <? ?b)%N] =>
        destruct (N.ltb_spec a b); try (exfalso; lia)
    | |- context [(?a <=? ?b)%N] =>
        destruct (N.leb_spec a b); try (exfalso; lia)
    | |- context [(?a =? ?b)%N] =>
        destruct (N.eqb_spec a b); try (exfalso; lia)
    end.

Ltac eat_byte :=
  rewrite decode_from_cons, N_ascii_embedding by lia;
  unfold step, start; cbn [acc need lo_bound hi_bound];
  split_tests; cbn [acc need lo_bound hi_bound app andb].

(** The digits of a code point in base 64, as the encoder and the
    decoder use them. *)
Ltac base64_digits cp :=
  let Hdm := fresh in let Hlt := fresh in
  let Hq := fresh in let Hq' := fresh in
  pose proof (N.div_mod cp 64 ltac:(lia)) as Hdm;
  pose proof (N.mod_lt cp 64 ltac:(lia)) as Hlt;
  assert (Hq : (cp / 4096 = cp / 64 / 64)%N)
    by (rewrite N.Div0.div_div; reflexivity);
  assert (Hq' : (cp / 262144 = cp / 64 / 64 / 64)%N)
    by (rewrite !N.Div0.div_div; reflexivity);
  rewrite ?Hq, ?Hq';
  let q := fresh "q" in let r := fresh "r" in
  set (q := (cp / 64)%N) in *; set (r := (cp mod 64)%N) in *;
  let Hdm2 := fresh in let Hlt2 := fresh in
  pose proof (N.div_mod q 64 ltac:(lia)) as Hdm2;
  pose proof (N.mod_lt q 64 ltac:(lia)) as Hlt2;
  let a := fresh "a" in let b := fresh "b" in
  set (a := (q / 64)%N) in *; set (b := (q mod 64)%N) in *;
  let Hdm3 := fresh in let Hlt3 := fresh in
  pose proof (N.div_mod a 64 ltac:(lia)) as Hdm3;
  pose proof (N.mod_lt a 64 ltac:(lia)) as Hlt3;
  let a1 := fresh "a" in let b1 := fresh "b" in
  set (a1 := (a / 64)%N) in *; set (b1 := (a mod 64)%N) in *.

(** Decoding the bytes of a code point gives its code units back. *)
Lemma decode_code_point (cp : N) (rest : string) :
  (cp < 0x110000)%N -> ~ (0xD800 <= cp < 0xE000)%N ->
  decode_from None (utf8_of_code_point cp +:+ rest) =
  (units_of_code_point cp ++ decode_from None rest)%list.
Proof.
  intros Hmax Hsur. unfold utf8_of_code_point.
  destruct (N.ltb_spec cp 0x80) as [H1|H1].
  { rewrite !append_cons, append_nil. eat_byte.
    unfold units_of_code_point. split_tests. reflexivity. }
  destruct (N.ltb_spec cp 0x800) as [H2|H2].
  { rewrite !append_cons, append_nil. base64_digits cp.
    do 2 eat_byte. f_equal. f_equal. lia. }
  destruct (N.ltb_spec cp 0x10000) as [H3|H3].
  { rewrite !append_cons, append_nil. base64_digits cp.
    do 3 eat_byte. all: f_equal; f_equal; lia. }
  rewrite !append_cons, append_nil. base64_digits cp.
  do 4 eat_byte. all: f_equal; f_equal; lia.
Qed.

Lemma unit_value_bound u : (unit_value u < 65536)%N.
Proof.
  destruct u as [hi lo]. simpl.
  pose proof (N_ascii_bounded hi). pose proof (N_ascii_bounded lo). lia.
Qed.

Lemma unit_of_N_value u : unit_of_N (unit_value u) = u.
Proof.
  destruct u as [hi lo]. unfold unit_of_N, unit_value.
  pose proof (N_ascii_bounded hi). pose proof (N_ascii_bounded lo).
  replace ((256 * N_of_ascii hi + N_of_ascii lo) / 256)%N with (N_of_ascii hi)
    by (apply (N.div_unique _ 256 _ (N_of_ascii lo)); lia).
  replace ((256 * N_of_ascii hi + N_of_ascii lo) mod 256)%N with (N_of_ascii lo)
    by (apply (N.mod_unique _ 256 (N_of_ascii hi) _); lia).
  by rewrite !ascii_N_embedding.
Qed.

Lemma byte_not_zero (n : N) :
  (n < 256)%N -> n <> 0%N -> Ascii.eqb (ascii_of_N n) zero = false.
Proof.
  intros Hn Hz. apply Ascii.eqb_neq. intros Heq.
  apply (f_equal N_of_ascii) in Heq. rewrite N_ascii_embedding in Heq by done.
  done.
Qed.

(** The bytes of a code point other than NUL hold no NUL. *)
Lemma std_string_utf8 (cp : N) (rest : string) :
  (cp < 0x110000)%N -> cp <> 0%N ->
  std_string (utf8_of_code_point cp +:+ rest) =
  utf8_of_code_point cp +:+ std_string rest.
Proof.
  intros Hmax Hz. unfold utf8_of_code_point. base64_digits cp.
  split_tests; rewrite !append_cons, append_nil; cbn [std_string];
    rewrite ?byte_not_zero by lia; reflexivity.
Qed.

Lemma is_lead_spec v :
  if is_lead v then (0xD800 <= v < 0xDC00)%N else (v < 0xD800 \/ 0xDC00 <= v)%N.
Proof. unfold is_lead. split_tests; simpl; lia. Qed.

Lemma is_trail_spec v :
  if is_trail v then (0xDC00 <= v < 0xE000)%N else (v < 0xDC00 \/ 0xE000 <= v)%N.
Proof. unfold is_trail. split_tests; simpl; lia. Qed.

Ltac surrogates :=
  repeat match goal with
    | H : is_lead ?v = _ |- _ =>
        let H' := fresh in
        pose proof (is_lead_spec v) as H'; rewrite H in H'; clear H
    | H : is_trail ?v = _ |- _ =>
        let H' := fresh in
        pose proof (is_trail_spec v) as H'; rewrite H in H'; clear H
    end.

Lemma std_string_WriteUtf8_nul u rest :
  unit_value u = 0%N -> std_string (WriteUtf8 (u :: rest)) = "".
Proof. intros Hz. cbn [WriteUtf8]. by rewrite Hz. Qed.

(** Cutting the UTF-8 form at its first NUL byte is cutting the string
    at its first NUL character. *)
Lemma std_string_WriteUtf8 (s : list code_unit) :
  std_string (WriteUtf8 s) = WriteUtf8 (nul_cut s).
Proof.
  remember (length s) as n eqn:Hn. revert s Hn.
  induction n as [n IH] using lt_wf_ind. intros s Hn.
  destruct s as [|u rest]; [done|].
  pose proof (unit_value_bound u) as Hu.
  cbn [nul_cut]. destruct (N.eqb_spec (unit_value u) 0) as [Hz|Hz].
  { by apply std_string_WriteUtf8_nul. }
  assert (Hrest : std_string (WriteUtf8 rest) = WriteUtf8 (nul_cut rest)).
  { apply (IH (length rest)); [simpl in Hn; lia | done]. }
  cbn [WriteUtf8]. destruct (is_lead (unit_value u)) eqn:Hlead.
  - destruct rest as [|u' rest']; [done|].
    pose proof (unit_value_bound u') as Hu'.
    cbn [nul_cut] in *.
    destruct (N.eqb_spec (unit_value u') 0) as [Hz'|Hz'].
    + assert (Htrail : is_trail (unit_value u') = false) by by rewrite Hz'.
      rewrite Htrail, std_string_utf8 by (unfold replacement; lia).
      by rewrite Hrest, append_empty.
    + destruct (is_trail (unit_value u')) eqn:Htrail.
      * rewrite std_string_utf8 by (surrogates; lia).
        rewrite (IH (length rest')); [done|simpl in Hn; lia|done].
      * rewrite std_string_utf8 by (unfold replacement; lia).
        by rewrite Hrest.
  - destruct (is_trail (unit_value u)) eqn:Htrail.
    + rewrite std_string_utf8 by (unfold replacement; lia). by rewrite Hrest.
    + rewrite std_string_utf8 by lia. by rewrite Hrest.
Qed.

Lemma nul_cut_no_nul s : no_nul s = true -> nul_cut s = s.
Proof.
  induction s as [|u s IH]; simpl; [done|].
  destruct (unit_value u =? 0)%N; simpl; [done|]. intros H. by rewrite IH.
Qed.

Lemma nul_cut_idem s : nul_cut (nul_cut s) = nul_cut s.
Proof.
  induction s as [|u s IH]; simpl; [done|].
  destruct (unit_value u =? 0)%N eqn:Hu; simpl; [done|]. by rewrite Hu, IH.
Qed.

(** A string without NUL goes through the C string unchanged. *)
Lemma std_string_nul_free (s : string) :
  nul_free s = true -> std_string s = s.
Proof.
  induction s as [|c s IH]; simpl; [done|].
  destruct (Ascii.eqb c zero); simpl; [done|].
  intros Hs. by rewrite IH.
Qed.

(** What comes out of a C string has no NUL left. *)
Lemma std_string_is_nul_free (s : string) : nul_free (std_string s) = true.
Proof.
  induction s as [|c s IH]; simpl; [done|].
  destruct (Ascii.eqb c zero) eqn:Hc; simpl; [done|]. by rewrite Hc, IH.
Qed.

(** A C string is the beginning of the buffer it is read from. *)
Lemma std_string_prefix (s : string) :
  exists tail, s = String.append (std_string s) tail.
Proof.
  induction s as [|c s [tail IH]]; simpl; [by exists ""|].
  destruct (Ascii.eqb c zero).
  - by exists (String c s).
  - exists tail.
    change (String c s = String c (String.append (std_string s) tail)).
    by rewrite <- IH.
Qed.

Lemma units_of_unit u :
  units_of_code_point (unit_value u) = [u].
Proof.
  unfold units_of_code_point.
  pose proof (unit_value_bound u). split_tests. by rewrite unit_of_N_value.
Qed.

Lemma units_of_pair u u' :
  is_lead (unit_value u) = true -> is_trail (unit_value u') = true ->
  units_of_code_point
    (0x10000 + (unit_value u - 0xD800) * 1024 + (unit_value u' - 0xDC00)) =
  [u; u'].
Proof.
  intros Hlead Htrail. surrogates.
  unfold units_of_code_point. split_tests.
  set (x := (unit_value u - 0xD800)%N) in *.
  set (y := (unit_value u' - 0xDC00)%N) in *.
  replace (65536 + x * 1024 + y - 65536)%N with (1024 * x + y)%N by lia.
  replace ((1024 * x + y) / 1024)%N with x
    by (apply (N.div_unique _ 1024 _ y); lia).
  replace ((1024 * x + y) mod 1024)%N with y
    by (apply (N.mod_unique _ 1024 x _); lia).
  replace (55296 + x)%N with (unit_value u) by lia.
  replace (56320 + y)%N with (unit_value u') by lia.
  by rewrite !unit_of_N_value.
Qed.

(** A string whose surrogates are all paired comes back from its UTF-8
    form as it was. *)
Lemma NewFromUtf8_WriteUtf8 (s : list code_unit) :
  well_formed s = true -> NewFromUtf8 (WriteUtf8 s) = s.
Proof.
  unfold NewFromUtf8.
  remember (length s) as n eqn:Hn. revert s Hn.
  induction n as [n IH] using lt_wf_ind. intros s Hn Hwf.
  destruct s as [|u rest]; [done|].
  pose proof (unit_value_bound u) as Hu.
  cbn [WriteUtf8 well_formed] in *.
  destruct (is_lead (unit_value u)) eqn:Hlead.
  - destruct rest as [|u' rest']; [done|].
    pose proof (unit_value_bound u') as Hu'.
    apply andb_true_iff in Hwf as [Htrail Hwf]. rewrite Htrail.
    rewrite decode_code_point, units_of_pair by (done || (surrogates; lia)).
    rewrite (IH (length rest')); [done|simpl in Hn; lia|done|done].
  - apply andb_true_iff in Hwf as [Htrail Hwf].
    apply negb_true_iff in Htrail. rewrite Htrail.
    rewrite decode_code_point, units_of_unit by (done || (surrogates; lia)).
    rewrite (IH (length rest)); [done|simpl in Hn; lia|done|done].
Qed.

(** The name or key that the binding makes of a string without NUL and
    without unpaired surrogate is its UTF-8 form, and that form read
    back is the string. *)
Lemma c_string_round_trip (s : list code_unit) :
  no_nul s = true -> well_formed s = true ->
  std_string (Utf8String s) = Utf8String s /\
  NewFromUtf8 (std_string (Utf8String s)) = s.
Proof.
  intros Hnul Hwf. unfold Utf8String.
  rewrite std_string_WriteUtf8, nul_cut_no_nul by done.
  split; [done|]. by apply NewFromUtf8_WriteUtf8.
Qed.

End Strings.

(** ** Properties *)

Section Properties.
Context {L : RdKafkaLib}.

Implicit Types (w : World) (t : Topic) (info : FunctionCallbackInfo).

(** Whatever [CreateTopic] answers, the constructor stores the name, the
    configuration and the connection it was given, and the world it
    leaves differs only in what the connection has become. *)
Lemma Topic_ctor_members w name config h :
  m_topic_name (Topic_ctor w name config h).1 = name /\
  m_config (Topic_ctor w name config h).1 = config /\
  m_handle (Topic_ctor w name config h).1 = Some h /\
  (Topic_ctor w name config h).2 =
    mkWorld (<[h := (CreateTopic (connection w h) name config).2]> (connection w))
      (topics w).
Proof.
  unfold Topic_ctor. destruct (CreateTopic _ _ _) as [b c]. by case_decide.
Qed.

(** A construct call with a string, an accepted configuration object and
    a wrapped connection goes all the way to [Wrap]. *)
Lemma New_accepted w id name cfgv config errstr h rest :
  IsObject cfgv = true ->
  Conf_create CONF_TOPIC cfgv = (Some config, errstr) ->
  New w (construct id (JsString name :: cfgv :: JsConnection h :: rest)) =
    (Return (JsInstance id),
     mkWorld
       (connection
          (Topic_ctor w (std_string (Utf8String name)) config (ConnectionAt h)).2)
       (<[id := (Topic_ctor w (std_string (Utf8String name)) config
                   (ConnectionAt h)).1]> (topics w))).
Proof.
  intros Hobj Hconf. unfold New, construct, arg, Length. simpl.
  rewrite Hobj, Hconf. simpl.
  destruct (Topic_ctor_members w (std_string (Utf8String name)) config
              (ConnectionAt h)) as (_ & _ & _ & Hw).
  destruct (Topic_ctor _ _ _ _) as [topic w1]. simpl in *. by rewrite Hw.
Qed.

(** A lookup hands back the world it was given. *)
Lemma NodeGet_world w info : snd (NodeGet w info) = w.
Proof.
  unfold NodeGet. destruct (Unwrap_Topic w (This info)); [|done].
  destruct (Length info <? 1)%nat; [done|].
  destruct (ToString (arg info 0)); [|done].
  by destruct (Conf_get _ _) as [[] ?].
Qed.

(** What a lookup with a string key answers, from the library's
    result. *)
Lemma NodeGet_with_key w id t key rest :
  topics w !! id = Some t ->
  fst (NodeGet w (method_call id (JsString key :: rest))) =
    match Conf_get (m_config t) (std_string (Utf8String key)) with
    | (CONF_UNKNOWN, _) => Return JsUndefined
    | (CONF_INVALID, _) => Throw "Topic configuration retroactively invalid..."
    | (CONF_OK, value) => Return (Nan_New value)
    end.
Proof.
  intros Ht. unfold NodeGet, method_call, arg, Length. simpl. rewrite Ht.
  by destruct (Conf_get _ _) as [[] ?].
Qed.

(** C1, as the code has it.  A lookup [get(key)] with a string key hands
    the library the key as a C string: its UTF-8 form cut at the first
    NUL, which is its whole UTF-8 form when the key has no NUL.  It has
    three distinct outcomes, one per result of the library for that C
    string: undefined exactly when it is unknown, a raised error exactly
    when it is known and the configuration has become invalid, the
    value as a string exactly when it is known and valid. *)
Theorem NodeGet_three_outcomes w id t (key : list code_unit) rest :
  topics w !! id = Some t ->
  let o := fst (NodeGet w (method_call id (JsString key :: rest))) in
  let c_key := std_string (Utf8String key) in
  let res := fst (Conf_get (m_config t) c_key) in
  let value := snd (Conf_get (m_config t) c_key) in
  (o = Return JsUndefined <-> res = CONF_UNKNOWN) /\
  ((exists msg, o = Throw msg) <-> res = CONF_INVALID) /\
  (o = Throw "Topic configuration retroactively invalid..."
     <-> res = CONF_INVALID) /\
  (o = Return (JsString (NewFromUtf8 value)) <-> res = CONF_OK) /\
  (forall v, o = Return v -> v <> JsUndefined ->
     v = JsString (NewFromUtf8 value)) /\
  c_key = Utf8String (nul_cut key) /\
  (no_nul key = true -> c_key = Utf8String key).
Proof.
  intros Ht. cbn zeta. rewrite (NodeGet_with_key _ _ _ _ _ Ht).
  assert (Hcut : std_string (Utf8String key) = Utf8String (nul_cut key))
    by apply std_string_WriteUtf8.
  assert (Hnul : no_nul key = true ->
                 std_string (Utf8String key) = Utf8String key).
  { intros Hn. by rewrite Hcut, nul_cut_no_nul. }
  unfold Nan_New.
  destruct (Conf_get _ _) as [[] value]; simpl;
    repeat split; try done; try (intros [? ?]; done); eauto;
    intros; simplify_eq; done.
Qed.

(** C2. [toRdKafkaTopic] fails, and then with [ERR__STATE], if and only
    if the Topic has no connection or the connection is not established
    in the world of the call.  The state is read at each call: a Topic
    built while its connection was established fails as soon as the
    connection is seen not established, and succeeds again once it is. *)
Theorem toRdKafkaTopic_checks_connection_per_call :
  (forall w t,
     (err (toRdKafkaTopic w t) <> ERR_NO_ERROR <->
        m_handle t = None \/
        exists h, m_handle t = Some h /\ IsConnected (connection w h) = false) /\
     (toRdKafkaTopic w t = Baton_of_err ERR__STATE <->
        err (toRdKafkaTopic w t) <> ERR_NO_ERROR)) /\
  (forall w0 w1 w2 name config h,
     IsConnected (connection w0 h) = true ->
     IsConnected (connection w1 h) = false ->
     IsConnected (connection w2 h) = true ->
     let t := (Topic_ctor w0 name config h).1 in
     err (toRdKafkaTopic w0 t) = ERR_NO_ERROR /\
     toRdKafkaTopic w1 t = Baton_of_err ERR__STATE /\
     err (toRdKafkaTopic w2 t) = ERR_NO_ERROR).
Proof.
  split.
  - intros w t. unfold toRdKafkaTopic.
    destruct (m_handle t) as [h|] eqn:Hh.
    + destruct (IsConnected (connection w h)) eqn:Hc; simpl.
      * split; [split|split]; try done.
        intros [|(h' & ? & ?)]; [done|]. congruence.
      * split; [split|split]; try done. intros _. right. eauto.
    + simpl. split; [split|split]; try done. intros _. by left.
  - intros w0 w1 w2 name config h H0 H1 H2 t.
    destruct (Topic_ctor_members w0 name config h) as (_ & _ & Hh & _).
    unfold toRdKafkaTopic. fold t in Hh. rewrite Hh, H0, H1, H2. done.
Qed.

(** C7. Lookups leave the world as they found it: after any sequence of
    [get] calls, with any arguments and on any receiver, every Topic
    still holds the members it had, its configuration among them. *)
Theorem lookups_leave_config_unchanged w (calls : list FunctionCallbackInfo) :
  snd (run_lookups w calls) = w /\
  forall id, m_config <$> topics (snd (run_lookups w calls)) !! id
             = m_config <$> topics w !! id.
Proof.
  assert (H : snd (run_lookups w calls) = w).
  { revert w. induction calls as [|info rest IH]; intros w; simpl; [done|].
    pose proof (NodeGet_world w info) as Hw.
    destruct (NodeGet w info) as [o w1]. simpl in Hw. subst w1.
    specialize (IH w). destruct (run_lookups w rest) as [os w2]. done. }
  split; [done|]. intros id. by rewrite H.
Qed.

(** C9. [get()] without any argument raises the error asking for a
    config key and leaves the world unchanged; undefined comes back only
    from a call that has at least one argument. *)
Theorem NodeGet_requires_key :
  (forall w id t,
     topics w !! id = Some t ->
     NodeGet w (method_call id []) =
       (Throw "Must provide a config key to lookup.", w)) /\
  (forall w info,
     fst (NodeGet w info) = Return JsUndefined -> 1 <= Length info).
Proof.
  split.
  - intros w id t Ht. unfold NodeGet, method_call. simpl. by rewrite Ht.
  - intros w info. unfold NodeGet.
    destruct (Unwrap_Topic w (This info)); [|done].
    destruct (Length info <? 1)%nat eqn:Hlen; [done|].
    intros _. apply Nat.ltb_ge in Hlen. lia.
Qed.

(** C8. When [CreateTopic] fails during construction, [New] still
    returns the instance, wrapping a Topic whose native handle is null;
    on an established connection [toRdKafkaTopic] then answers with code
    [ERR_NO_ERROR] and that null handle. *)
Theorem failed_CreateTopic_gives_null_handle
    w id name cfgv config errstr h rest :
  IsObject cfgv = true ->
  Conf_create CONF_TOPIC cfgv = (Some config, errstr) ->
  err (CreateTopic (connection w (ConnectionAt h))
         (std_string (Utf8String name)) config).1 <> ERR_NO_ERROR ->
  let t := mkTopic None (std_string (Utf8String name)) config
             (Some (ConnectionAt h)) in
  New w (construct id (JsString name :: cfgv :: JsConnection h :: rest)) =
    (Return (JsInstance id),
     mkWorld
       (<[ConnectionAt h :=
            (CreateTopic (connection w (ConnectionAt h))
               (std_string (Utf8String name)) config).2]> (connection w))
       (<[id := t]> (topics w))) /\
  forall w1,
    IsConnected (connection w1 (ConnectionAt h)) = true ->
    toRdKafkaTopic w1 t = Baton_of_data None /\
    err (toRdKafkaTopic w1 t) = ERR_NO_ERROR /\
    data (toRdKafkaTopic w1 t) = None.
Proof.
  intros Hobj Hconf Herr t. split.
  - rewrite (New_accepted _ _ _ _ _ _ _ _ Hobj Hconf).
    unfold Topic_ctor. destruct (CreateTopic _ _ _) as [b c]. simpl in *.
    by case_decide.
  - intros w1 Hc. unfold toRdKafkaTopic. simpl. by rewrite Hc.
Qed.

(** A call that fails one of the five checks of [New] is answered with
    an error, in the world it was made in. *)
Lemma New_guards w info :
  IsConstructCall info = false \/
  Length info < 3 \/
  IsString (arg info 0) = false \/
  IsObject (arg info 1) = false \/
  fst (Conf_create CONF_TOPIC (arg info 1)) = None ->
  exists msg,
    New w info = (Throw msg, w) /\
    (msg = "non-constructor invocation not supported" \/
     msg = "Handle, topic name and configuration required" \/
     msg = "Topic name must be a string" \/
     msg = "Configuration data must be specified" \/
     msg = std_string (snd (Conf_create CONF_TOPIC (arg info 1)))).
Proof.
  intros Hbad. unfold New.
  destruct (IsConstructCall info); simpl; [|eauto 10].
  destruct (Length info <? 3)%nat eqn:Hlen; [eauto 10|].
  apply Nat.ltb_ge in Hlen.
  destruct (arg info 0) as [| | |name| | |]; simpl; eauto 10.
  destruct (IsObject (arg info 1)); simpl; [|eauto 10].
  destruct (Conf_create CONF_TOPIC (arg info 1)) as [[config|] errstr];
    simpl in *; [|eauto 10].
  destruct Hbad as [?|[?|[?|[?|?]]]]; try done. lia.
Qed.

(** C10. [New] checks its call before it builds anything: a call that is
    not a construct call, has fewer than three arguments, has a name that
    is not a string, has a configuration that is not an object or that
    [Conf::create] rejects, raises an error at once, and the world is the
    one before the call: no Topic has been built or wrapped. *)
Theorem New_validates_before_construction w info :
  IsConstructCall info = false \/
  Length info < 3 \/
  IsString (arg info 0) = false \/
  IsObject (arg info 1) = false \/
  fst (Conf_create CONF_TOPIC (arg info 1)) = None ->
  exists msg,
    New w info = (Throw msg, w) /\
    (msg = "non-constructor invocation not supported" \/
     msg = "Handle, topic name and configuration required" \/
     msg = "Topic name must be a string" \/
     msg = "Configuration data must be specified" \/
     msg = std_string (snd (Conf_create CONF_TOPIC (arg info 1)))).
Proof. apply New_guards. Qed.

(** The messages of C10, case by case in the order of the checks. *)
Lemma New_error_messages w info :
  (IsConstructCall info = false ->
   New w info = (Throw "non-constructor invocation not supported", w)) /\
  (IsConstructCall info = true -> Length info < 3 ->
   New w info = (Throw "Handle, topic name and configuration required", w)) /\
  (IsConstructCall info = true -> 3 <= Length info ->
   IsString (arg info 0) = false ->
   New w info = (Throw "Topic name must be a string", w)) /\
  (IsConstructCall info = true -> 3 <= Length info ->
   IsString (arg info 0) = true -> IsObject (arg info 1) = false ->
   New w info = (Throw "Configuration data must be specified", w)) /\
  (forall errstr,
   IsConstructCall info = true -> 3 <= Length info ->
   IsString (arg info 0) = true -> IsObject (arg info 1) = true ->
   Conf_create CONF_TOPIC (arg info 1) = (None, errstr) ->
   New w info = (Throw (std_string errstr), w)).
Proof.
  unfold New. repeat split.
  - by intros ->.
  - intros -> Hlen. apply Nat.ltb_lt in Hlen. by rewrite Hlen.
  - intros -> Hlen ->. apply Nat.ltb_ge in Hlen. by rewrite Hlen.
  - intros -> Hlen Hs ->. apply Nat.ltb_ge in Hlen. rewrite Hlen.
    by destruct (arg info 0).
  - intros errstr -> Hlen Hs -> ->. apply Nat.ltb_ge in Hlen. rewrite Hlen.
    by destruct (arg info 0).
Qed.

(** C4, as the code has it.  [New] raises an error whenever the
    configuration is not an object or [Conf::create] rejects it.  The
    name only has to be a string: with the empty string, an accepted
    configuration and a wrapped connection, [New] returns the instance,
    and the Topic it wraps is named by the empty string. *)
Theorem New_rejects_bad_config_accepts_empty_name :
  (forall w info,
     IsObject (arg info 1) = false \/
     fst (Conf_create CONF_TOPIC (arg info 1)) = None ->
     exists msg, New w info = (Throw msg, w)) /\
  (forall w id cfgv config errstr h rest,
     IsObject cfgv = true ->
     Conf_create CONF_TOPIC cfgv = (Some config, errstr) ->
     exists w1,
       New w (construct id (JsString [] :: cfgv :: JsConnection h :: rest)) =
         (Return (JsInstance id), w1) /\
       Name <$> topics w1 !! id = Some "").
Proof.
  split.
  - intros w info Hbad.
    destruct (New_guards w info) as (msg & H & _); [tauto | eauto].
  - intros w id cfgv config errstr h rest Hobj Hconf.
    eexists. split; [by apply (New_accepted _ _ [] _ _ _ _ _ Hobj Hconf)|].
    simpl. rewrite lookup_insert_eq. simpl. unfold Name.
    by destruct (Topic_ctor_members w "" config (ConnectionAt h)) as (-> & _).
Qed.

(** C5, as the code has it.  For a name without NUL character and
    without unpaired surrogate, an accepted configuration object and a
    connected connection, [New] returns the instance, and from then on
    [name()] returns exactly that name in every world in which the
    instance still wraps its Topic, whatever the connections have
    become.  In general the name returned is the C string of the UTF-8
    form of the name given, read back. *)
Theorem New_then_name w id name cfgv config errstr h rest :
  IsObject cfgv = true ->
  Conf_create CONF_TOPIC cfgv = (Some config, errstr) ->
  IsConnected (connection w (ConnectionAt h)) = true ->
  exists w1,
    New w (construct id (JsString name :: cfgv :: JsConnection h :: rest)) =
      (Return (JsInstance id), w1) /\
    forall w2 a,
      topics w2 !! id = topics w1 !! id ->
      NodeGetName w2 (method_call id a) =
        (Return (JsString (NewFromUtf8 (std_string (Utf8String name)))), w2) /\
      (no_nul name = true -> well_formed name = true ->
       NodeGetName w2 (method_call id a) = (Return (JsString name), w2)).
Proof.
  intros Hobj Hconf _. eexists.
  split; [exact (New_accepted _ _ _ _ _ _ _ _ Hobj Hconf)|].
  intros w2 a Hsame. simpl in Hsame. rewrite lookup_insert_eq in Hsame.
  assert (Hget : NodeGetName w2 (method_call id a) =
                 (Return (JsString (NewFromUtf8 (std_string (Utf8String name)))),
                  w2)).
  { unfold NodeGetName, method_call. simpl. rewrite Hsame. unfold Name, Nan_New.
    by destruct (Topic_ctor_members w (std_string (Utf8String name)) config
                   (ConnectionAt h)) as (-> & _). }
  split; [done|]. intros Hnul Hwf. rewrite Hget.
  by destruct (c_string_round_trip name Hnul Hwf) as (_ & ->).
Qed.

(** C6, as the code has it.  Two accepted creation requests with the
    same name on the same connection both return their instance; the two
    Topics exist side by side, each with the configuration of its own
    request, and each answers [get] of a string key from that
    configuration. *)
Theorem New_twice_builds_two_topics
    w id1 id2 name cfgv1 cfgv2 config1 config2 errstr1 errstr2 h :
  id1 <> id2 ->
  IsObject cfgv1 = true -> IsObject cfgv2 = true ->
  Conf_create CONF_TOPIC cfgv1 = (Some config1, errstr1) ->
  Conf_create CONF_TOPIC cfgv2 = (Some config2, errstr2) ->
  exists w1 w2 t1 t2,
    New w (construct id1 [JsString name; cfgv1; JsConnection h]) =
      (Return (JsInstance id1), w1) /\
    New w1 (construct id2 [JsString name; cfgv2; JsConnection h]) =
      (Return (JsInstance id2), w2) /\
    topics w2 !! id1 = Some t1 /\ topics w2 !! id2 = Some t2 /\
    Name t1 = Name t2 /\ m_handle t1 = m_handle t2 /\
    m_config t1 = config1 /\ m_config t2 = config2 /\
    forall key : list code_unit,
      fst (NodeGet w2 (method_call id1 [JsString key])) =
        match Conf_get config1 (std_string (Utf8String key)) with
        | (CONF_UNKNOWN, _) => Return JsUndefined
        | (CONF_INVALID, _) =>
            Throw "Topic configuration retroactively invalid..."
        | (CONF_OK, value) => Return (JsString (NewFromUtf8 value))
        end /\
      fst (NodeGet w2 (method_call id2 [JsString key])) =
        match Conf_get config2 (std_string (Utf8String key)) with
        | (CONF_UNKNOWN, _) => Return JsUndefined
        | (CONF_INVALID, _) =>
            Throw "Topic configuration retroactively invalid..."
        | (CONF_OK, value) => Return (JsString (NewFromUtf8 value))
        end.
Proof.
  intros Hne Hobj1 Hobj2 Hconf1 Hconf2.
  eexists _, _, _, _.
  split; [exact (New_accepted _ _ _ _ _ _ _ _ Hobj1 Hconf1)|].
  split; [exact (New_accepted _ _ _ _ _ _ _ _ Hobj2 Hconf2)|]. simpl.
  split; [by rewrite lookup_insert_ne, lookup_insert_eq|].
  split; [by rewrite lookup_insert_eq|].
  set (w1 := mkWorld _ _).
  destruct (Topic_ctor_members w (std_string (Utf8String name)) config1
              (ConnectionAt h)) as (Hn1 & Hc1 & Hh1 & _).
  destruct (Topic_ctor_members w1 (std_string (Utf8String name)) config2
              (ConnectionAt h)) as (Hn2 & Hc2 & Hh2 & _).
  unfold Name. rewrite Hn1, Hn2, Hh1, Hh2. repeat split; try done.
  - erewrite NodeGet_with_key; [by rewrite Hc1|].
    simpl. by rewrite lookup_insert_ne, lookup_insert_eq.
  - erewrite NodeGet_with_key; [by rewrite Hc2|].
    simpl. by rewrite lookup_insert_eq.
Qed.

End Properties.

(** ** Runs on the sample library *)

Section Runs.
Import Sample.

(** The amended C1 at work: on a Topic whose entry ["acks"] has become
    invalid, [get("acks")] raises; the empty key is unknown and gives
    undefined. *)
Lemma NodeGet_three_outcomes_witness :
  topics stale_world !! 0 = Some stale_topic /\
  fst (NodeGet stale_world (method_call 0 [JsString (js "acks")])) =
    Throw "Topic configuration retroactively invalid..." /\
  fst (NodeGet stale_world (method_call 0 [JsString []])) = Return JsUndefined.
Proof.
  split; [reflexivity|]. split.
  - apply (NodeGet_three_outcomes stale_world 0 stale_topic (js "acks") []);
      reflexivity.
  - apply (NodeGet_three_outcomes stale_world 0 stale_topic [] []);
      reflexivity.
Defined.

(** C1 fails in two ways on a Topic configured with [{"acks": "1"}].
    The key [acks\0x] was never set and the library does not know it,
    yet [get] answers ["1"], the value of ["acks"].  And the key
    [{toString: null}] makes [get] raise although no key of the
    configuration is invalid: a fourth outcome. *)
Lemma get_outside_three_outcomes :
  topics orders_world !! 0 = Some orders_topic /\
  fst (Conf_get (m_config orders_topic) (Utf8String acks_nul_x)) = CONF_UNKNOWN /\
  fst (NodeGet orders_world (method_call 0 [JsString acks_nul_x])) =
    Return (JsString (js "1")) /\
  fst (NodeGet orders_world (method_call 0 [no_toString])) =
    Throw "Cannot convert object to primitive value" /\
  forall k, fst (Conf_get (m_config orders_topic) k) <> CONF_INVALID.
Proof.
  repeat split. intros k. simpl. unfold get. simpl.
  by destruct (k =? "acks")%string.
Qed.

(** C2 at work: built and usable while connection 0 is established, the
    Topic fails in the world where it is not. *)
Lemma toRdKafkaTopic_checks_connection_per_call_witness :
  IsConnected (connection online (ConnectionAt 0)) = true /\
  IsConnected (connection offline (ConnectionAt 0)) = false /\
  toRdKafkaTopic offline
    (Topic_ctor online "orders" (mkConf [] []) (ConnectionAt 0)).1 =
    Baton_of_err ERR__STATE.
Proof.
  split; [reflexivity|]. split; [reflexivity|].
  apply (proj2 toRdKafkaTopic_checks_connection_per_call
           online offline online "orders" (mkConf [] []) (ConnectionAt 0));
    reflexivity.
Defined.

(** C3. With connection 0 not established, [CreateTopic] answers
    [ERR__STATE]; [new Topic("orders", {"acks": "1"}, conn)] nevertheless
    returns the instance without raising anything, and the Topic it wraps
    has a null native handle: the error code is dropped. *)
Example New_discards_CreateTopic_error :
  err (CreateTopic (connection offline (ConnectionAt 0)) "orders"
         (mkConf [("acks", "1")] [])).1
    = ERR__STATE /\
  fst (New offline orders_1) = Return (JsInstance 0) /\
  m_topic <$> topics (snd (New offline orders_1)) !! 0 = Some None.
Proof. repeat split. Qed.

(** C4 fails for the empty name: [new Topic("", {"acks": "1"}, conn)]
    returns the instance and raises no error. *)
Lemma New_accepts_empty_name :
  let info := construct 0 [JsString (js ""); acks "1"; JsConnection 0] in
  arg info 0 = JsString [] /\
  fst (New online info) = Return (JsInstance 0) /\
  ~ exists msg, fst (New online info) = Throw msg.
Proof.
  repeat split. intros [msg Hmsg]. vm_compute in Hmsg. discriminate.
Qed.

(** The amended C4 at work: a configuration that is not an object is
    refused, the empty name is not. *)
Lemma New_rejects_bad_config_accepts_empty_name_witness :
  (exists msg,
     New online (construct 0 [JsString (js "orders"); JsNull; JsConnection 0]) =
       (Throw msg, online)) /\
  (exists w1,
     New online (construct 0 [JsString []; acks "1"; JsConnection 0]) =
       (Return (JsInstance 0), w1) /\
     Name <$> topics w1 !! 0 = Some "").
Proof.
  split.
  - apply (proj1 New_rejects_bad_config_accepts_empty_name).
    left. reflexivity.
  - apply (proj2 New_rejects_bad_config_accepts_empty_name
             online 0 (acks "1") (mkConf [("acks", "1")] []) "" 0 []);
      reflexivity.
Defined.

(** C5 fails for a name with a NUL character and for a name with an
    unpaired surrogate, on an established connection: created with the
    name [a\0b], the Topic answers [name()] with ["a"]; created with the
    name made of the lone surrogate U+D800, it answers with U+FFFD. *)
Lemma name_not_returned_exactly :
  let with_nul := construct 0 [JsString a_nul_b; acks "1"; JsConnection 0] in
  let with_lone :=
    construct 0 [JsString lone_surrogate; acks "1"; JsConnection 0] in
  IsConnected (connection online (ConnectionAt 0)) = true /\
  fst (New online with_nul) = Return (JsInstance 0) /\
  fst (NodeGetName (snd (New online with_nul)) (method_call 0 [])) =
    Return (JsString (js "a")) /\
  JsString (js "a") <> JsString a_nul_b /\
  fst (New online with_lone) = Return (JsInstance 0) /\
  fst (NodeGetName (snd (New online with_lone)) (method_call 0 [])) =
    Return (JsString [unit_of_N 0xFFFD]) /\
  JsString [unit_of_N 0xFFFD] <> JsString lone_surrogate /\
  no_nul lone_surrogate = true.
Proof. repeat split; vm_compute; discriminate. Qed.

(** The amended C5 at work: created as ["orders"] on the established
    connection 0, the Topic is still named ["orders"] once every
    connection is down. *)
Lemma New_then_name_witness :
  no_nul (js "orders") = true /\ well_formed (js "orders") = true /\
  IsConnected (connection online (ConnectionAt 0)) = true /\
  exists w1,
    New online orders_1 = (Return (JsInstance 0), w1) /\
    NodeGetName (mkWorld (connection offline) (topics w1)) (method_call 0 []) =
      (Return (JsString (js "orders")),
       mkWorld (connection offline) (topics w1)).
Proof.
  split; [reflexivity|]. split; [reflexivity|]. split; [reflexivity|].
  destruct (New_then_name online 0 (js "orders") (acks "1")
              (mkConf [("acks", "1")] []) "" 0 [] eq_refl eq_refl eq_refl)
    as (w1 & Hnew & Hname).
  exists w1. split; [exact Hnew|].
  apply (Hname (mkWorld (connection offline) (topics w1)) []); reflexivity.
Defined.

(** C6 fails: two requests for ["orders"] on connection 0, with
    [{"acks": "1"}] and with [{"acks": "0"}], both return an instance;
    the two Topics coexist and disagree on ["acks"]. *)
Lemma same_name_two_configs :
  let w1 := snd (New online orders_1) in
  let w2 := snd (New w1 orders_0) in
  fst (New online orders_1) = Return (JsInstance 0) /\
  fst (New w1 orders_0) = Return (JsInstance 1) /\
  Name <$> topics w2 !! 0 = Some "orders" /\
  Name <$> topics w2 !! 1 = Some "orders" /\
  m_handle <$> topics w2 !! 0 = Some (Some (ConnectionAt 0)) /\
  m_handle <$> topics w2 !! 1 = Some (Some (ConnectionAt 0)) /\
  fst (NodeGet w2 (method_call 0 [JsString (js "acks")])) =
    Return (JsString (js "1")) /\
  fst (NodeGet w2 (method_call 1 [JsString (js "acks")])) =
    Return (JsString (js "0")).
Proof. repeat split. Qed.

(** The amended C6 at work on the same two requests. *)
Lemma New_twice_builds_two_topics_witness :
  exists w1 w2 t1 t2,
    New online orders_1 = (Return (JsInstance 0), w1) /\
    New w1 orders_0 = (Return (JsInstance 1), w2) /\
    topics w2 !! 0 = Some t1 /\ topics w2 !! 1 = Some t2 /\
    m_config t1 = mkConf [("acks", "1")] [] /\
    m_config t2 = mkConf [("acks", "0")] [].
Proof.
  destruct (New_twice_builds_two_topics online 0 1 (js "orders")
              (acks "1") (acks "0")
              (mkConf [("acks", "1")] []) (mkConf [("acks", "0")] [])
              "" "" 0)
    as (w1 & w2 & t1 & t2 & H1 & H2 & Ht1 & Ht2 & _ & _ & Hc1 & Hc2 & _);
    [lia | reflexivity | reflexivity | reflexivity | reflexivity |].
  exists w1, w2, t1, t2. repeat split; assumption.
Defined.

(** C8 at work: built while connection 0 was down, asked for its handle
    once the connection is up, the Topic hands out a null handle with
    [ERR_NO_ERROR]. *)
Lemma failed_CreateTopic_gives_null_handle_witness :
  err (CreateTopic (connection offline (ConnectionAt 0)) "orders"
         (mkConf [("acks", "1")] [])).1
    <> ERR_NO_ERROR /\
  fst (New offline orders_1) = Return (JsInstance 0) /\
  toRdKafkaTopic online
    (mkTopic None "orders" (mkConf [("acks", "1")] []) (Some (ConnectionAt 0))) =
    Baton_of_data None.
Proof.
  assert (Herr : err (CreateTopic (connection offline (ConnectionAt 0))
                        (std_string (Utf8String (js "orders")))
                        (mkConf [("acks", "1")] [])).1 <> ERR_NO_ERROR)
    by (simpl; discriminate).
  split; [exact Herr|].
  destruct (failed_CreateTopic_gives_null_handle offline 0 (js "orders")
              (acks "1") (mkConf [("acks", "1")] []) "" 0 []
              eq_refl eq_refl Herr)
    as (Hnew & Hhandle).
  split.
  - unfold orders_1. rewrite Hnew. reflexivity.
  - apply (Hhandle online). reflexivity.
Defined.

(** C9 at work on the Topic of [stale_world]. *)
Lemma NodeGet_requires_key_witness :
  NodeGet stale_world (method_call 0 []) =
    (Throw "Must provide a config key to lookup.", stale_world) /\
  1 <= Length (method_call 0 [JsString (js "missing")]).
Proof.
  split.
  - apply (proj1 NodeGet_requires_key stale_world 0 stale_topic). reflexivity.
  - apply (proj2 NodeGet_requires_key stale_world). reflexivity.
Defined.

(** C10 at work: [Topic("orders", {"acks": "1"}, conn)] called without
    [new] raises and builds nothing. *)
Lemma New_validates_before_construction_witness :
  exists msg,
    New online
      (method_call 0 [JsString (js "orders"); acks "1"; JsConnection 0]) =
      (Throw msg, online) /\
    (msg = "non-constructor invocation not supported" \/
     msg = "Handle, topic name and configuration required" \/
     msg = "Topic name must be a string" \/
     msg = "Configuration data must be specified" \/
     msg = std_string (snd (Conf_create CONF_TOPIC (acks "1")))).
Proof.
  apply (New_validates_before_construction online
           (method_call 0 [JsString (js "orders"); acks "1"; JsConnection 0])).
  left. reflexivity.
Defined.

End Runs.

(** ** The rest of the binding *)

Section Binding.
Context {L : RdKafkaLib}.

Implicit Types (w : World) (t : Topic) (info : FunctionCallbackInfo).

(** The two ways [New] can end: without a value and with the Topics as
    they were, or by wrapping in its receiver a Topic made by the
    constructor. *)
Lemma New_cases w info :
  (forall v, (New w info).1 <> Return v) /\ topics (New w info).2 = topics w \/
  exists id name config errstr h,
    This info = JsInstance id /\
    IsConstructCall info = true /\ 3 <= Length info /\
    arg info 0 = JsString name /\ IsObject (arg info 1) = true /\
    Conf_create CONF_TOPIC (arg info 1) = (Some config, errstr) /\
    Unwrap_Connection (arg info 2) = Some h /\
    New w info =
      (Return (JsInstance id),
       mkWorld
         (connection (Topic_ctor w (std_string (Utf8String name)) config h).2)
         (<[id := (Topic_ctor w (std_string (Utf8String name)) config h).1]>
            (topics w))).
Proof.
  unfold New.
  destruct (IsConstructCall info); simpl; [|by left].
  destruct (Length info <? 3)%nat eqn:Hlen; [by left|].
  apply Nat.ltb_ge in Hlen.
  destruct (arg info 0) as [| | |name| | |] eqn:Hname; simpl; try by left.
  destruct (IsObject (arg info 1)) eqn:Hobj; simpl; [|by left].
  destruct (Conf_create CONF_TOPIC (arg info 1)) as [[config|] errstr]
    eqn:Hconf; [|by left].
  destruct (Unwrap_Connection (arg info 2)) as [h|] eqn:Hh; [|by left].
  destruct (Topic_ctor w (std_string (Utf8String name)) config h)
    as [topic w1] eqn:Hctor.
  assert (Hw : topics w1 = topics w).
  { destruct (Topic_ctor_members w (std_string (Utf8String name)) config h)
      as (_ & _ & _ & Hw). rewrite Hctor in Hw. simpl in Hw. by subst w1. }
  destruct (This info) as [| | | | | |id]; simpl; try by left.
  right. exists id, name, config, errstr, h. rewrite Hctor, Hw. done.
Qed.

(** A Topic made by the constructor has the shape [built_by_New] when
    its name is a C string. *)
Lemma Topic_ctor_built w name config h :
  built_by_New (Topic_ctor w (std_string name) config h).1 = true.
Proof.
  unfold built_by_New.
  destruct (Topic_ctor_members w (std_string name) config h)
    as (-> & _ & -> & _).
  by rewrite std_string_is_nul_free.
Qed.

(** X1. [NewInstance] never yields a Topic: its construct call carries
    one argument, [New] asks for three, and the empty result is
    unwrapped with [ToLocalChecked].  Whatever the argument, the process
    goes down and no Topic has been built. *)
Theorem NewInstance_always_crashes w fresh arg0 :
  NewInstance w fresh arg0 = (Crash, w) /\
  New w (construct fresh [arg0]) =
    (Throw "Handle, topic name and configuration required", w).
Proof. by unfold NewInstance, New, construct, Length. Qed.

(** X2. Whether [New] returns, raises or stops, and with which value or
    message, is the same in every world: no check of [New] looks at the
    state of a connection or at the Topics that exist. *)
Theorem New_outcome_ignores_world w w' info :
  (New w info).1 = (New w' info).1.
Proof.
  unfold New.
  destruct (IsConstructCall info); simpl; [|done].
  destruct (Length info <? 3)%nat; [done|].
  destruct (IsString (arg info 0)); simpl; [|done].
  destruct (ToString (arg info 0)); [|done].
  destruct (IsObject (arg info 1)); simpl; [|done].
  destruct (Conf_create CONF_TOPIC (arg info 1)) as [[config|] errstr];
    [|done].
  destruct (Unwrap_Connection (arg info 2)); [|done].
  do 2 destruct (Topic_ctor _ _ _ _).
  by destruct (This info).
Qed.

(** X3. [New], given as its connection anything but an instance of the
    Topic template, leaves the Topic of every instance other than its
    receiver as it was; and when it returns no value, it has wrapped no
    Topic at all. *)
Theorem New_frame w info :
  connection_is_no_Topic info = true ->
  (forall id, This info <> JsInstance id ->
     topics (New w info).2 !! id = topics w !! id) /\
  ((forall v, (New w info).1 <> Return v) -> topics (New w info).2 = topics w).
Proof.
  intros _.
  destruct (New_cases w info)
    as [[Hno ->]|(id' & name & config & errstr & h & Hthis & _ & _ & _ & _ & _
                  & _ & Hnew)]; [done|].
  rewrite Hnew. simpl. split.
  - intros id Hid. apply lookup_insert_ne. congruence.
  - intros Hno. exfalso. by apply (Hno (JsInstance id')).
Qed.

(** X4. [New] reads its first three arguments only: any further
    argument changes neither the outcome nor the world. *)
Theorem New_ignores_extra_arguments w c this a0 a1 a2 rest :
  New w {| IsConstructCall := c; This := this; args := a0 :: a1 :: a2 :: rest |} =
  New w {| IsConstructCall := c; This := this; args := [a0; a1; a2] |}.
Proof. by unfold New, arg, Length. Qed.

(** X5. [New] returns only when every check has passed: the call is a
    construct call with at least three arguments, a string name and an
    object that [Conf::create] accepts, and its third argument is an
    object with an internal field, a wrapped connection or an instance
    of the Topic template.  The value returned is the receiver, which
    now wraps a Topic with that configuration, whose connection is the
    pointer found in the third argument, and whose name is the C string
    of the name given: a beginning of its UTF-8 form, without NUL. *)
Theorem New_returns_only_checked w info v w1 :
  New w info = (Return v, w1) ->
  IsConstructCall info = true /\ 3 <= Length info /\
  IsString (arg info 0) = true /\ IsObject (arg info 1) = true /\
  ((exists p, arg info 2 = JsConnection p) \/
   (exists i, arg info 2 = JsInstance i)) /\
  v = This info /\
  exists id name config errstr h t tail,
    This info = JsInstance id /\
    arg info 0 = JsString name /\
    Conf_create CONF_TOPIC (arg info 1) = (Some config, errstr) /\
    Unwrap_Connection (arg info 2) = Some h /\
    topics w1 !! id = Some t /\
    m_config t = config /\ m_handle t = Some h /\
    nul_free (Name t) = true /\
    Utf8String name = String.append (Name t) tail.
Proof.
  intros Hnew.
  destruct (New_cases w info)
    as [[Hno _]|(id & name & config & errstr & h & Hthis & Hc & Hlen & Hs & Ho
                 & Hconf & Hh & Heq)].
  { exfalso. apply (Hno v). by rewrite Hnew. }
  rewrite Heq in Hnew. injection Hnew as <- <-.
  repeat split; try done.
  { by rewrite Hs. }
  { destruct (arg info 2); try done; eauto. }
  destruct (std_string_prefix (Utf8String name)) as [tail Htail].
  destruct (Topic_ctor_members w (std_string (Utf8String name)) config h)
    as (Hn & Hcf & Hhd & _).
  exists id, name, config, errstr, h,
    (Topic_ctor w (std_string (Utf8String name)) config h).1, tail.
  simpl. rewrite lookup_insert_eq. unfold Name. rewrite Hn.
  repeat split; try done. apply std_string_is_nul_free.
Qed.

(** X6. The native handle goes in at construction and comes out
    unchanged: when [CreateTopic] succeeds with handle [d], the Topic
    [New] wraps answers every later [toRdKafkaTopic] with [d] while its
    connection is established, and with [ERR__STATE] while it is not. *)
Theorem New_then_handle w id name cfgv config errstr h rest d :
  IsObject cfgv = true ->
  Conf_create CONF_TOPIC cfgv = (Some config, errstr) ->
  err (CreateTopic (connection w (ConnectionAt h))
         (std_string (Utf8String name)) config).1 = ERR_NO_ERROR ->
  data (CreateTopic (connection w (ConnectionAt h))
          (std_string (Utf8String name)) config).1 = d ->
  exists w1 t,
    New w (construct id (JsString name :: cfgv :: JsConnection h :: rest)) =
      (Return (JsInstance id), w1) /\
    topics w1 !! id = Some t /\
    forall w2,
      toRdKafkaTopic w2 t =
        if IsConnected (connection w2 (ConnectionAt h)) then Baton_of_data d
        else Baton_of_err ERR__STATE.
Proof.
  intros Hobj Hconf Herr Hdata.
  eexists _, _. split; [exact (New_accepted _ _ _ _ _ _ _ _ Hobj Hconf)|].
  simpl. split; [apply lookup_insert_eq|].
  intros w2. unfold toRdKafkaTopic, Topic_ctor.
  destruct (CreateTopic _ _ _) as [b c]. simpl in *.
  rewrite decide_True by done. simpl. rewrite Hdata.
  by destruct (IsConnected (connection w2 (ConnectionAt h))).
Qed.

(** X7. [get] looks its key up as a C string and reads one argument:
    a key is cut at its first NUL, so [get("acks\0x")] is [get("acks")],
    and further arguments count for nothing. *)
Theorem NodeGet_key_is_c_string w id k rest :
  NodeGet w (method_call id (JsString k :: rest)) =
  NodeGet w (method_call id [JsString (nul_cut k)]).
Proof.
  unfold NodeGet, method_call, arg, Length, Utf8String. simpl.
  by rewrite !std_string_WriteUtf8, nul_cut_idem.
Qed.


(** X9. Neither [get] nor [name] looks at a connection: in two worlds
    with the same Topics, a call gives the same outcome whatever the
    state of the connections. *)
Theorem lookups_ignore_connections
    (c1 c2 : ConnPtr -> Connection) (ts : gmap nat Topic) info :
  (NodeGet (mkWorld c1 ts) info).1 = (NodeGet (mkWorld c2 ts) info).1 /\
  (NodeGetName (mkWorld c1 ts) info).1 = (NodeGetName (mkWorld c2 ts) info).1.
Proof.
  unfold NodeGet, NodeGetName, Unwrap_Topic. simpl. split.
  - destruct (This info) as [| | | | | |id]; try done.
    destruct (ts !! id) as [t|]; [|done].
    destruct (Length info <? 1)%nat; [done|].
    destruct (ToString (arg info 0)); [|done].
    by destruct (Conf_get _ _) as [[] ?].
  - destruct (This info) as [| | | | | |id]; try done.
    by destruct (ts !! id).
Qed.

(** [name] hands back the world it was given. *)
Lemma NodeGetName_world w info : (NodeGetName w info).2 = w.
Proof. unfold NodeGetName. by destruct (Unwrap_Topic w (This info)). Qed.

(** So does a prototype method, whatever its receiver. *)
Lemma SetPrototypeMethod_world (f : NanMethod) w info :
  (forall w' info', (f w' info').2 = w') ->
  (SetPrototypeMethod f w info).2 = w.
Proof. intros Hf. unfold SetPrototypeMethod. by destruct (This info). Qed.

(** The native code behind the class is [New] and, behind the signature
    of the class, [NodeGetName] and [NodeGet]. *)
Lemma entry_points_inv (f : NanMethod) :
  In f entry_points ->
  f = New \/ f = SetPrototypeMethod NodeGetName \/ f = SetPrototypeMethod NodeGet.
Proof. simpl. intros [<-|[<-|[<-|[]]]]; auto. Qed.

(** One call through the class keeps every Topic on another instance,
    removes none, and wraps only Topics of the shape [built_by_New]. *)
Lemma entry_point_step (f : NanMethod) w info :
  In f entry_points ->
  (forall id, This info <> JsInstance id ->
     topics (f w info).2 !! id = topics w !! id) /\
  (forall id, is_Some (topics w !! id) -> is_Some (topics (f w info).2 !! id)) /\
  (forall id t, topics (f w info).2 !! id = Some t ->
     topics w !! id = Some t \/ built_by_New t = true).
Proof.
  intros [->|[->| ->]]%entry_points_inv.
  - destruct (New_cases w info)
      as [[_ ->]|(id' & name & config & errstr & h & Hthis & _ & _ & _ & _ & _
                  & _ & ->)]; [by auto|].
    simpl. repeat split.
    + intros id Hid. apply lookup_insert_ne. congruence.
    + intros id Hid. destruct (decide (id' = id)) as [->|Hne].
      * rewrite lookup_insert_eq. eauto.
      * by rewrite lookup_insert_ne.
    + intros id t. destruct (decide (id' = id)) as [->|Hne].
      * rewrite lookup_insert_eq. intros [= <-]. right.
        apply Topic_ctor_built.
      * rewrite lookup_insert_ne by done. auto.
  - rewrite SetPrototypeMethod_world by apply NodeGetName_world. auto.
  - rewrite SetPrototypeMethod_world by apply NodeGet_world. auto.
Qed.

(** X10. Whatever sequence of calls JavaScript makes through the class
    that [Init] sets up, none of them naming an instance of the Topic
    template as its connection, the binding unwraps no Topic, and the
    Topic of an instance on which none of the calls is made is the one
    it was. *)
Theorem run_frame w (calls : list (NanMethod * FunctionCallbackInfo)) :
  Forall (fun c => In c.1 entry_points) calls ->
  Forall (fun c => connection_is_no_Topic c.2 = true) calls ->
  (forall id, is_Some (topics w !! id) ->
     is_Some (topics (run w calls).2 !! id)) /\
  (forall id, Forall (fun c => This c.2 <> JsInstance id) calls ->
     topics (run w calls).2 !! id = topics w !! id).
Proof.
  intros Hcalls _. revert w.
  induction Hcalls as [|[f info] rest Hf _ IH]; intros w; simpl; [done|].
  destruct (entry_point_step f w info Hf) as (Hother & Hkeep & _).
  destruct (f w info) as [o w1]. simpl in *.
  destruct (IH w1) as (IHkeep & IHother).
  destruct (run w1 rest) as [os w2]. simpl in *.
  split.
  - intros id Hid. auto.
  - intros id Hid. inversion Hid as [|? ? Hhead Htail]; subst. simpl in Hhead.
    rewrite IHother by done. auto.
Qed.

(** X11. The shape [built_by_New] is kept by every sequence of calls
    through the class, none of them naming an instance of the Topic
    template as its connection: if every Topic has a name without NUL
    and a connection pointer that is not null before, so has every
    Topic after. *)
Theorem run_keeps_shape w (calls : list (NanMethod * FunctionCallbackInfo)) :
  Forall (fun c => In c.1 entry_points) calls ->
  Forall (fun c => connection_is_no_Topic c.2 = true) calls ->
  (forall id t, topics w !! id = Some t -> built_by_New t = true) ->
  forall id t,
    topics (run w calls).2 !! id = Some t ->
    nul_free (Name t) = true /\ exists h, m_handle t = Some h.
Proof.
  intros Hcalls _ Hshape id t Ht.
  assert (Hb : built_by_New t = true).
  { revert w Hshape Ht.
    induction Hcalls as [|[f info] rest Hf _ IH]; intros w Hshape; simpl.
    { apply Hshape. }
    destruct (entry_point_step f w info Hf) as (_ & _ & Hnew).
    destruct (f w info) as [o w1]. simpl in *.
    specialize (IH w1). destruct (run w1 rest) as [os w2]. simpl in *.
    apply IH. intros id' t' Ht'.
    destruct (Hnew id' t' Ht') as [Hold|Hbuilt]; eauto. }
  unfold built_by_New in Hb. apply andb_true_iff in Hb as [Hname Hh].
  split; [done|]. destruct (m_handle t) as [h|]; [eauto|done].
Qed.

(** X12. The prototype [Init] installs is read-only: after any sequence
    of calls of its methods, [name] and [get], on any receivers and with
    any arguments, the world is the one before. *)
Theorem prototype_methods_read_only w
    (calls : list (NanMethod * FunctionCallbackInfo)) :
  Forall (fun c => In c.1 (snd <$> prototype_methods Init)) calls ->
  (run w calls).2 = w.
Proof.
  intros Hcalls. revert w.
  induction Hcalls as [|[f info] rest Hf _ IH]; intros w; simpl; [done|].
  assert (Hw : (f w info).2 = w).
  { simpl in Hf. destruct Hf as [<-|[<-|[]]];
      apply SetPrototypeMethod_world;
      [apply NodeGetName_world | apply NodeGet_world]. }
  destruct (f w info) as [o w1]. simpl in Hw. subst w1.
  specialize (IH w). by destruct (run w rest) as [os w2].
Qed.

End Binding.

(** ** Runs of the rest of the binding *)

Section BindingRuns.
Import Sample SampleRun.

(** X3 at work: building the Topic of instance 0 leaves instance 5
    alone. *)
Lemma New_frame_witness :
  connection_is_no_Topic orders_1 = true /\
  This orders_1 <> JsInstance 5 /\
  topics (New online orders_1).2 !! 5 = topics online !! 5.
Proof.
  assert (H : This orders_1 <> JsInstance 5) by (simpl; discriminate).
  split; [reflexivity|]. split; [exact H|].
  apply (proj1 (New_frame online orders_1 eq_refl) 5 H).
Defined.

(** X5 at work on [new Topic("orders", {"acks": "1"}, conn0)]. *)
Lemma New_returns_only_checked_witness :
  New online orders_1 = (Return (JsInstance 0), (New online orders_1).2) /\
  IsConstructCall orders_1 = true /\ 3 <= Length orders_1.
Proof.
  split; [reflexivity|].
  destruct (New_returns_only_checked online orders_1 (JsInstance 0)
              (New online orders_1).2 eq_refl) as (Hc & Hlen & _).
  split; assumption.
Defined.

(** X6 at work: the handle ["orders"] made at construction comes back
    while connection 0 is up, and [ERR__STATE] when it is down. *)
Lemma New_then_handle_witness :
  exists w1 t,
    New online orders_1 = (Return (JsInstance 0), w1) /\
    topics w1 !! 0 = Some t /\
    toRdKafkaTopic online t = Baton_of_data (Some "orders") /\
    toRdKafkaTopic offline t = Baton_of_err ERR__STATE.
Proof.
  destruct (New_then_handle online 0 (js "orders") (acks "1")
              (mkConf [("acks", "1")] []) "" 0 [] (Some "orders")
              eq_refl eq_refl eq_refl eq_refl)
    as (w1 & t & Hnew & Ht & Hhandle).
  exists w1, t. repeat split; try assumption.
  - apply (Hhandle online).
  - apply (Hhandle offline).
Defined.


(** Every call of [session] and of [reads] enters through the class, and
    no call of [session] names a Topic instance as its connection. *)
Lemma session_enters_by_class :
  Forall (fun c => In c.1 entry_points) session.
Proof. repeat (constructor 2; [simpl; auto|]). constructor 1. Defined.

Lemma session_names_no_Topic :
  Forall (fun c => connection_is_no_Topic c.2 = true) session.
Proof. repeat (constructor 2; [reflexivity|]). constructor 1. Defined.

Lemma reads_enter_by_prototype :
  Forall (fun c => In c.1 (snd <$> prototype_methods Init)) reads.
Proof. repeat (constructor 2; [simpl; auto|]). constructor 1. Defined.

(** X10 at work: after [session], instance 7, on which no call was made,
    holds no Topic as before. *)
Lemma run_frame_witness :
  topics (run online session).2 !! 7 = topics online !! 7.
Proof.
  destruct (run_frame online session session_enters_by_class
              session_names_no_Topic) as (_ & Hother).
  apply Hother.
  repeat (constructor 2; [simpl; discriminate|]). constructor 1.
Defined.

(** X11 at work: the Topic that [session] builds from the name [a\0b]
    is named ["a"]. *)
Lemma run_keeps_shape_witness :
  topics (run online session).2 !! 1 =
    Some (mkTopic (Some "a") "a" (mkConf [] []) (Some (ConnectionAt 0))) /\
  nul_free "a" = true.
Proof.
  split; [reflexivity|].
  assert (Hshape : forall id t,
             topics online !! id = Some t -> built_by_New t = true).
  { intros id t H. simpl in H. rewrite lookup_empty in H. discriminate. }
  apply (run_keeps_shape online session session_enters_by_class
           session_names_no_Topic Hshape
           1 (@mkTopic lib (Some "a") "a" (mkConf [] []) (Some (ConnectionAt 0)))).
  reflexivity.
Defined.

(** X12 at work: [reads] leaves [stale_world] as it is. *)
Lemma prototype_methods_read_only_witness :
  (run stale_world reads).2 = stale_world.
Proof.
  apply (prototype_methods_read_only stale_world reads
           reads_enter_by_prototype).
Defined.

End BindingRuns.
